(** * Portfolio accounting of the PnLTracker component

    A shallow embedding of the accounting logic of
    [src/components/PnLTracker.tsx] (the version that keeps a daily
    P&L history): the effect that folds the transaction ledger into
    per-token positions, the effect that records the daily portfolio
    value, and [addTransaction]; further [fetchTokenPrices],
    [setStartBalanceValue], the totals of the overview and the lists of
    the transactions and daily tabs.

    Modelling conventions.
    - A JavaScript [number] is an exact rational ([Q]); equality of amounts
      is [Qeq] ([==]).  [NaN] and the infinities are outside the model; the
      code guards each of its divisions by a [> 0] test, so the model never
      divides by zero.
    - A React state variable is a value passed to, and returned from, the
      function that models the effect or handler reading and setting it.
    - [tokenPrices] and [positionMap] are JavaScript objects used as maps
      keyed by the token symbol; both are finite maps.  [Object.values]
      enumerates the map; no property below depends on the enumeration
      order.
    - [new Date().toDateString()] and [Date.now()] are inputs ([today],
      [now]); [parseFloat] is a parameter of [addTransaction]; the reply
      of the price service is an input of [fetchTokenPrices]. *)

From Stdlib Require Import QArith Lqa ZArith Ascii Sorted Permutation.
From stdpp Require Import gmap strings list pretty.

Module PnLTracker.

Open Scope Q_scope.

(** ** JavaScript helpers *)

(** [x > 0] on numbers, as a boolean. *)
Definition Qltb (x y : Q) : bool := negb (Qle_bool y x).

(** [v || d] where [v] is a number or [undefined]: [undefined] and [0] are
    falsy. *)
Definition orElse (v : option Q) (d : Q) : Q :=
  match v with
  | Some x => if Qeq_bool x 0 then d else x
  | None => d
  end.

(** [String.prototype.toUpperCase] on ASCII text: the letters [a]-[z] are
    mapped to [A]-[Z], every other character is kept. *)
Definition upper_ascii (c : Ascii.ascii) : Ascii.ascii :=
  let n := Ascii.N_of_ascii c in
  if ((97 <=? n) && (n <=? 122))%N then Ascii.ascii_of_N (n - 32) else c.

Fixpoint toUpperCase (s : string) : string :=
  match s with
  | EmptyString => EmptyString
  | String c s' => String (upper_ascii c) (toUpperCase s')
  end.

(** [Array.prototype.findIndex]: the index of the first element that
    satisfies [f], or [-1]. *)
Fixpoint findIndex {A : Type} (f : A -> bool) (l : list A) : Z :=
  match l with
  | [] => (-1)%Z
  | x :: l' =>
      if f x then 0%Z
      else let i := findIndex f l' in
           if (i <? 0)%Z then (-1)%Z else (i + 1)%Z
  end.

(** [l[i]] for an integer [i]: [undefined] outside [0 .. length-1]. *)
Definition at_index {A : Type} (l : list A) (i : Z) : option A :=
  if (i <? 0)%Z then None else l !! Z.to_nat i.

(** ** Data model *)

Inductive TransactionType : Type := buy | sell.

Record Transaction : Type := mkTransaction {
  id : string;
  tokenSymbol : string;
  type : TransactionType;
  amount : Q;
  pricePerToken : Q;
  timestamp : Z;
  totalValue : Q
}.

Record TokenPosition : Type := mkTokenPosition {
  symbol : string;
  totalAmount : Q;
  avgCostBasis : Q;
  currentPrice : Q;
  totalInvested : Q;
  currentValue : Q;
  pnl : Q;
  pnlPercentage : Q;
  transactions : list Transaction
}.

Record DailyPnL : Type := mkDailyPnL {
  date : string;
  portfolioValue : Q;
  dailyChange : Q;
  dailyChangePercentage : Q
}.

(** ** Positions from transactions *)

(** The object stored in [positionMap] the first time a symbol is seen. *)
Definition newPosition (tokenPrices : gmap string Q) (sym : string)
  : TokenPosition :=
  {| symbol := sym;
     totalAmount := 0;
     avgCostBasis := 0;
     currentPrice := orElse (tokenPrices !! sym) 0;
     totalInvested := 0;
     currentValue := 0;
     pnl := 0;
     pnlPercentage := 0;
     transactions := [] |}.

(** The position a transaction for [sym] is applied to: the stored one, or
    the fresh one created by the [if (!positionMap[symbol])] branch. *)
Definition positionOf (tokenPrices : gmap string Q)
    (positionMap : gmap string TokenPosition) (sym : string) : TokenPosition :=
  match positionMap !! sym with
  | Some p => p
  | None => newPosition tokenPrices sym
  end.

(** The [buy] branch. *)
Definition applyBuy (p : TokenPosition) (t : Transaction) : TokenPosition :=
  let newTotalInvested := totalInvested p + totalValue t in
  let newTotalAmount := totalAmount p + amount t in
  {| symbol := symbol p;
     totalAmount := newTotalAmount;
     avgCostBasis :=
       if Qltb 0 newTotalAmount then newTotalInvested / newTotalAmount else 0;
     currentPrice := currentPrice p;
     totalInvested := newTotalInvested;
     currentValue := currentValue p;
     pnl := pnl p;
     pnlPercentage := pnlPercentage p;
     transactions := transactions p |}.

(** The [else] (sell) branch. *)
Definition applySell (p : TokenPosition) (t : Transaction) : TokenPosition :=
  {| symbol := symbol p;
     totalAmount := totalAmount p - amount t;
     avgCostBasis := avgCostBasis p;
     currentPrice := currentPrice p;
     totalInvested := totalInvested p - amount t * avgCostBasis p;
     currentValue := currentValue p;
     pnl := pnl p;
     pnlPercentage := pnlPercentage p;
     transactions := transactions p |}.

(** [positionMap[symbol].transactions.push(transaction)]. *)
Definition pushTransaction (p : TokenPosition) (t : Transaction)
  : TokenPosition :=
  {| symbol := symbol p;
     totalAmount := totalAmount p;
     avgCostBasis := avgCostBasis p;
     currentPrice := currentPrice p;
     totalInvested := totalInvested p;
     currentValue := currentValue p;
     pnl := pnl p;
     pnlPercentage := pnlPercentage p;
     transactions := transactions p ++ [t] |}.

(** One iteration of [transactions.forEach]. *)
Definition applyTransaction (tokenPrices : gmap string Q)
    (positionMap : gmap string TokenPosition) (t : Transaction)
  : gmap string TokenPosition :=
  let sym := toUpperCase (tokenSymbol t) in
  let p := pushTransaction (positionOf tokenPrices positionMap sym) t in
  let p' := match type t with
            | buy => applyBuy p t
            | sell => applySell p t
            end in
  <[sym := p']> positionMap.

(** The whole [transactions.forEach] loop, from the empty [positionMap]. *)
Definition foldTransactions (tokenPrices : gmap string Q)
    (txs : list Transaction) : gmap string TokenPosition :=
  fold_left (applyTransaction tokenPrices) txs ∅.

(** The body of the second loop: price, value and P&L of one position. *)
Definition valuePosition (tokenPrices : gmap string Q) (p : TokenPosition)
  : TokenPosition :=
  let price := orElse (tokenPrices !! symbol p) 0 in
  let value := totalAmount p * price in
  let gain := value - totalInvested p in
  {| symbol := symbol p;
     totalAmount := totalAmount p;
     avgCostBasis := avgCostBasis p;
     currentPrice := price;
     totalInvested := totalInvested p;
     currentValue := value;
     pnl := gain;
     pnlPercentage :=
       if Qltb 0 (totalInvested p) then gain / totalInvested p * 100 else 0;
     transactions := transactions p |}.

(** [Object.values(positionMap)]. *)
Definition values (positionMap : gmap string TokenPosition)
  : list TokenPosition :=
  (map_to_list positionMap).*2.

(** The positions effect: the value given to [setPositions]. *)
Definition resolvePositions (txs : list Transaction)
    (tokenPrices : gmap string Q) : list TokenPosition :=
  List.filter (fun p => Qltb 0 (totalAmount p))
    (List.map (valuePosition tokenPrices)
       (values (foldTransactions tokenPrices txs))).

(** ** Totals over the reported positions *)

Definition getTotalPortfolioValue (positions : list TokenPosition) : Q :=
  fold_left (fun total position => total + currentValue position) positions 0.



(** ** Daily P&L history *)

(** The object written for [today], given the value it is compared with. *)
Definition dailyEntry (today : string) (currentValue previousValue : Q)
  : DailyPnL :=
  {| date := today;
     portfolioValue := currentValue;
     dailyChange := currentValue - previousValue;
     dailyChangePercentage :=
       if Qltb 0 previousValue
       then (currentValue - previousValue) / previousValue * 100
       else 0 |}.

(** The daily P&L effect: the next value of [dailyPnLHistory]. *)
Definition trackDailyPnL (positions : list TokenPosition) (startBalance : Q)
    (dailyPnLHistory : list DailyPnL) (today : string) : list DailyPnL :=
  let currentValue := getTotalPortfolioValue positions in
  if Qeq_bool currentValue 0 then dailyPnLHistory
  else
    let existingEntryIndex :=
      findIndex (fun entry => String.eqb (date entry) today) dailyPnLHistory in
    if (0 <=? existingEntryIndex)%Z then
      let previousValue :=
        orElse (portfolioValue <$>
                  at_index dailyPnLHistory (existingEntryIndex - 1))
               startBalance in
      <[Z.to_nat existingEntryIndex :=
          dailyEntry today currentValue previousValue]> dailyPnLHistory
    else
      let previousValue :=
        match last dailyPnLHistory with
        | Some e => portfolioValue e
        | None => startBalance
        end in
      dailyPnLHistory ++ [dailyEntry today currentValue previousValue].

(** [getTodaysPnL]. *)
Definition getTodaysPnL (dailyPnLHistory : list DailyPnL) (today : string)
  : option DailyPnL :=
  List.find (fun entry => String.eqb (date entry) today) dailyPnLHistory.

(** ** Adding a transaction *)

(** The form state [newTransaction]: the text of the three inputs and the
    selected side. *)
Record TransactionForm : Type := mkTransactionForm {
  formSymbol : string;
  formType : TransactionType;
  formAmount : string;
  formPrice : string
}.

(** [!s] on a string: only the empty string is falsy. *)
Definition isEmpty (s : string) : bool := String.eqb s EmptyString.

Section AddTransaction.

(** JavaScript's [parseFloat], restricted to the texts a number input
    can hold. *)
Variable parseFloat : string -> Q.

(** The transaction built from the form at time [now]; the two calls of
    [Date.now()] are taken to return the same instant. *)
Definition buildTransaction (now : Z) (f : TransactionForm) : Transaction :=
  {| id := pretty now;
     tokenSymbol := toUpperCase (formSymbol f);
     type := formType f;
     amount := parseFloat (formAmount f);
     pricePerToken := parseFloat (formPrice f);
     timestamp := now;
     totalValue := parseFloat (formAmount f) * parseFloat (formPrice f) |}.

(** [addTransaction]: the next value of the [transactions] state. *)
Definition addTransaction (now : Z) (f : TransactionForm)
    (txs : list Transaction) : list Transaction :=
  if isEmpty (formSymbol f) || isEmpty (formAmount f) || isEmpty (formPrice f)
  then txs
  else txs ++ [buildTransaction now f].

End AddTransaction.

(** ** Reference quantities of the specification *)

(** Total spent on, and total amount bought by, a list of purchases: the
    specification's "total spent" and "total held". *)
Definition totalSpent (txs : list Transaction) : Q :=
  fold_right (fun t acc => amount t * pricePerToken t + acc) 0 txs.

Definition totalHeld (txs : list Transaction) : Q :=
  fold_right (fun t acc => amount t + acc) 0 txs.

(** A ledger entry as [addTransaction] records it: the stored total is the
    amount times the unit price. *)
Definition consistent (t : Transaction) : Prop :=
  totalValue t == amount t * pricePerToken t.

(** A purchase of the token [sym]. *)
Definition buyOf (sym : string) (t : Transaction) : Prop :=
  type t = buy /\ toUpperCase (tokenSymbol t) = sym.

(** Every position of a [positionMap] is stored under its own symbol. *)
Definition keyed (m : gmap string TokenPosition) : Prop :=
  forall k p, m !! k = Some p -> symbol p = k.

(** The histories the daily effect can build, starting from the empty one. *)
Inductive reachable : list DailyPnL -> Prop :=
| reachable_empty : reachable []
| reachable_sample positions startBalance h today :
    reachable h ->
    reachable (trackDailyPnL positions startBalance h today).

(** ** Concrete ledgers, prices and histories *)

(** [parseFloat] on a plain decimal literal: an optional sign, digits and
    an optional fraction; reading stops at the first other character. *)
Definition digitOf (c : Ascii.ascii) : option Z :=
  let n := Ascii.N_of_ascii c in
  if ((48 <=? n) && (n <=? 57))%N then Some (Z.of_N (n - 48)) else None.

Fixpoint parseDigits (s : string) (num : Z) (den : positive) (frac : bool)
  : Q :=
  match s with
  | EmptyString => num # den
  | String c s' =>
      match digitOf c with
      | Some d =>
          parseDigits s' (num * 10 + d)
            (if frac then den * 10 else den)%positive frac
      | None =>
          if Ascii.eqb c "."%char && negb frac
          then parseDigits s' num den true
          else num # den
      end
  end.

Definition parseDecimal (s : string) : Q :=
  match s with
  | String "-"%char s' => - parseDigits s' 0 1 false
  | String "+"%char s' => parseDigits s' 0 1 false
  | _ => parseDigits s 0 1 false
  end.

(** A Bitcoin transaction as [addTransaction] records it. *)
Definition btc (side : TransactionType) (a p : Q) : Transaction :=
  {| id := "1700000000000";
     tokenSymbol := "BTC";
     type := side;
     amount := a;
     pricePerToken := p;
     timestamp := 1700000000000;
     totalValue := a * p |}.

(** Scenario A: two purchases of half a Bitcoin. *)
Definition scenarioA : list Transaction :=
  [btc buy 0.5 45000; btc buy 0.5 47000].

(** Scenario B: scenario A followed by a sale of 0.2 Bitcoin. *)
Definition scenarioB (salePrice : Q) : list Transaction :=
  scenarioA ++ [btc sell 0.2 salePrice].

(** A sale of a Bitcoin that is not held, then a purchase of half of one. *)
Definition oversoldThenBought : list Transaction :=
  [btc sell 1 100; btc buy 0.5 100].

Definition btcAt (price : Q) : gmap string Q := {[ "BTC" := price ]}.

(** The positions reported for one Bitcoin bought at 100 and priced at 120:
    a portfolio worth 120. *)
Definition oneBitcoin : list TokenPosition :=
  resolvePositions [btc buy 1 100] (btcAt 120).

(** A history holding one entry, for [day], of value 100. *)
Definition onlyEntry (day : string) : list DailyPnL :=
  [{| date := day;
      portfolioValue := 100;
      dailyChange := 0;
      dailyChangePercentage := 0 |}].

(** The position reported for Bitcoin after scenario A, priced at 50000. *)
Definition scenarioAReported : TokenPosition :=
  valuePosition (btcAt 50000)
    (positionOf (btcAt 50000) (foldTransactions (btcAt 50000) scenarioA)
       "BTC").

Definition newYear : string := "Mon Jan 01 2024".

(** A history of two days: 100 on the eve, 110 on [newYear]. *)
Definition twoDays : list DailyPnL :=
  [{| date := "Sun Dec 31 2023";
      portfolioValue := 100;
      dailyChange := 0;
      dailyChangePercentage := 0 |};
   {| date := newYear;
      portfolioValue := 110;
      dailyChange := 10;
      dailyChangePercentage := 10 |}].

(** The form filled with a negative amount. *)
Definition negativeAmountForm : TransactionForm :=
  {| formSymbol := "btc";
     formType := buy;
     formAmount := "-5";
     formPrice := "100" |}.

(** ** Fetching prices *)



Definition POPULAR_TOKENS : list string :=
  ["BTC"; "ETH"; "SOL"; "USDC"; "USDT"; "BNB"; "XRP"; "ADA"].

(** [[...new Set(l)]]: the elements of [l] in order of first occurrence;
    [seen] holds the elements already met. *)
Fixpoint uniqueFrom (seen l : list string) : list string :=
  match l with
  | [] => []
  | x :: l' =>
      if existsb (String.eqb x) seen then uniqueFrom seen l'
      else x :: uniqueFrom (x :: seen) l'
  end.

Definition unique (l : list string) : list string := uniqueFrom [] l.


Definition tokensToFetch (txs : list Transaction) : list string :=
  let uniqueTokens := unique (List.map tokenSymbol txs) in
  unique (uniqueTokens ++ POPULAR_TOKENS).




(** ** The start balance form *)

Record BalanceForm : Type := mkBalanceForm {
  startBalance : Q;
  startBalanceInput : string;
  isSettingStartBalance : bool
}.

Section SetStartBalance.

Variable parseFloat : string -> Q.

(** [setStartBalanceValue]. *)
Definition setStartBalanceValue (st : BalanceForm) : BalanceForm :=
  if isEmpty (startBalanceInput st) then st
  else {| startBalance := parseFloat (startBalanceInput st);
          startBalanceInput := EmptyString;
          isSettingStartBalance := false |}.

End SetStartBalance.

(** ** What the tabs list *)

(** [transactions.sort((a, b) => b.timestamp - a.timestamp)]: the sort is
    stable, so a transaction is put before the first one that is not
    newer than it.  The array is sorted in place. *)
Fixpoint insertByTime (t : Transaction) (l : list Transaction)
  : list Transaction :=
  match l with
  | [] => [t]
  | u :: l' =>
      if (timestamp t <? timestamp u)%Z then u :: insertByTime t l'
      else t :: l
  end.

Definition sortNewestFirst (txs : list Transaction) : list Transaction :=
  fold_right insertByTime [] txs.

(** The order of the transactions tab: [a] may stand before [b]. *)
Definition newerFirst (a b : Transaction) : Prop :=
  (timestamp b <= timestamp a)%Z.

(** [dailyPnLHistory.slice().reverse().slice(0, 30)]. *)
Definition recentDaily (dailyPnLHistory : list DailyPnL) : list DailyPnL :=
  take 30 (reverse dailyPnLHistory).

(** ** Further reference quantities *)


(** The transactions of a ledger that concern [sym]. *)
Definition ofSymbol (sym : string) (txs : list Transaction)
  : list Transaction :=
  List.filter (fun t => String.eqb (toUpperCase (tokenSymbol t)) sym) txs.





(** ** Further concrete ledgers and forms *)

Definition eve : string := "Sun Dec 31 2023".

(** An Ether transaction recorded a millisecond after the Bitcoin ones. *)
Definition eth (side : TransactionType) (a p : Q) : Transaction :=
  {| id := "1700000000001";
     tokenSymbol := "ETH";
     type := side;
     amount := a;
     pricePerToken := p;
     timestamp := 1700000000001;
     totalValue := a * p |}.

Definition twoTokens : list Transaction := [btc buy 1 100; eth buy 2 50].

Definition twoPrices : gmap string Q := <["ETH" := 60]> (btcAt 120).


(** The position reported for Bitcoin after scenario A without any price. *)
Definition scenarioAUnpriced : TokenPosition :=
  valuePosition ∅ (positionOf ∅ (foldTransactions ∅ scenarioA) "BTC").

(** The start balance form holding the text 500. *)
Definition balanceForm500 : BalanceForm :=
  {| startBalance := 0;
     startBalanceInput := "500";
     isSettingStartBalance := true |}.

(** * Properties *)

(** ** Comparisons *)

Lemma Qltb_lt (x y : Q) : Qltb x y = true <-> x < y.
Proof.
  unfold Qltb. rewrite negb_true_iff, <- not_true_iff_false, Qle_bool_iff.
  split; [apply Qnot_le_lt | apply Qlt_not_le].
Qed.

Lemma Qltb_ge (x y : Q) : Qltb x y = false <-> y <= x.
Proof.
  unfold Qltb. rewrite negb_false_iff. apply Qle_bool_iff.
Qed.

(** ** One step of the fold *)

Lemma foldTransactions_snoc prices txs t :
  foldTransactions prices (txs ++ [t]) =
  applyTransaction prices (foldTransactions prices txs) t.
Proof. unfold foldTransactions. now rewrite fold_left_app. Qed.

Lemma applyTransaction_lookup prices (m : gmap string TokenPosition) t :
  applyTransaction prices m t !! toUpperCase (tokenSymbol t) =
  Some (match type t with
        | buy => applyBuy
        | sell => applySell
        end (pushTransaction
               (positionOf prices m (toUpperCase (tokenSymbol t))) t) t).
Proof.
  unfold applyTransaction. rewrite lookup_insert_eq. now destruct (type t).
Qed.

Lemma applyTransaction_lookup_ne prices (m : gmap string TokenPosition) t sym :
  toUpperCase (tokenSymbol t) <> sym ->
  applyTransaction prices m t !! sym = m !! sym.
Proof. intros Hne. unfold applyTransaction. now rewrite lookup_insert_ne. Qed.

(** ** Every stored position sits under its own symbol *)

Lemma keyed_positionOf prices m sym :
  keyed m -> symbol (positionOf prices m sym) = sym.
Proof.
  intros Hm. unfold positionOf.
  destruct (m !! sym) as [p|] eqn:E; [now apply Hm | reflexivity].
Qed.

Lemma keyed_applyTransaction prices m t :
  keyed m -> keyed (applyTransaction prices m t).
Proof.
  intros Hm k p.
  destruct (decide (toUpperCase (tokenSymbol t) = k)) as [<-|Hne].
  - rewrite applyTransaction_lookup. intros [= <-].
    destruct (type t); cbn; now apply keyed_positionOf.
  - rewrite applyTransaction_lookup_ne by assumption. apply Hm.
Qed.

Lemma keyed_fold prices txs m :
  keyed m -> keyed (fold_left (applyTransaction prices) txs m).
Proof.
  revert m. induction txs as [|t txs IH]; intros m Hm; cbn; [assumption|].
  apply IH. now apply keyed_applyTransaction.
Qed.

Lemma keyed_foldTransactions prices txs :
  keyed (foldTransactions prices txs).
Proof. apply keyed_fold. intros k p. now rewrite lookup_empty. Qed.

(** ** What the positions effect reports *)

Lemma In_values (m : gmap string TokenPosition) q :
  In q (values m) <-> exists k, m !! k = Some q.
Proof.
  unfold values. rewrite <- list_elem_of_In, list_elem_of_fmap. split.
  - intros [[k q'] [-> Hin]]. exists k. now apply elem_of_map_to_list.
  - intros [k Hk]. exists (k, q). split; [reflexivity|].
    now apply elem_of_map_to_list.
Qed.

Lemma In_resolvePositions txs prices p :
  In p (resolvePositions txs prices) <->
  exists q, foldTransactions prices txs !! symbol q = Some q /\
            p = valuePosition prices q /\ 0 < totalAmount q.
Proof.
  unfold resolvePositions. rewrite filter_In, in_map_iff. split.
  - intros [[q [<- Hq]] Hpos]. apply In_values in Hq as [k Hk].
    exists q. rewrite (keyed_foldTransactions _ _ _ _ Hk).
    split; [assumption|]. split; [reflexivity|]. now apply Qltb_lt in Hpos.
  - intros [q [Hq [-> Hpos]]]. split.
    + exists q. split; [reflexivity|]. apply In_values. eauto.
    + now apply Qltb_lt.
Qed.

Lemma reported_symbol txs prices sym p :
  In p (resolvePositions txs prices) -> symbol p = sym ->
  exists q, foldTransactions prices txs !! sym = Some q /\
            p = valuePosition prices q /\ 0 < totalAmount q.
Proof.
  intros Hin <-. apply In_resolvePositions in Hin as [q [Hq [-> Hpos]]].
  exists q. now repeat split.
Qed.

Lemma NoDup_map_filter {A B : Type} (f : A -> B) (g : A -> bool) (l : list A) :
  NoDup (List.map f l) -> NoDup (List.map f (List.filter g l)).
Proof.
  induction l as [|a l IH]; cbn; intros Hnd; [constructor|].
  apply NoDup_cons in Hnd as [Hnotin Hnd].
  destruct (g a); cbn; [|now apply IH].
  apply NoDup_cons. split; [|now apply IH].
  rewrite list_elem_of_In, in_map_iff in *.
  intros [x [Hx Hin]]. apply Hnotin. exists x. split; [assumption|].
  apply filter_In in Hin. tauto.
Qed.

Lemma symbols_of_values prices (m : gmap string TokenPosition) :
  keyed m ->
  List.map symbol (List.map (valuePosition prices) (values m)) =
  (map_to_list m).*1.
Proof.
  intros Hm. unfold values. rewrite List.map_map.
  assert (H : forall kp, In kp (map_to_list m) -> symbol kp.2 = kp.1).
  { intros [k p] Hin. apply Hm. apply elem_of_map_to_list.
    now apply list_elem_of_In. }
  induction (map_to_list m) as [|kp l IH]; cbn; [reflexivity|].
  rewrite (H kp) by now left. f_equal. apply IH.
  intros kp' Hin. apply H. now right.
Qed.

(** C6. The positions effect reports exactly the symbols whose folded held
    amount is strictly positive, each once: a symbol is reported if and only
    if its position in the folded map holds more than 0, so a position
    holding 0 or less is never reported. *)
Theorem reported_iff_positive_held txs prices sym :
  ((exists p, In p (resolvePositions txs prices) /\ symbol p = sym) <->
   (exists q, foldTransactions prices txs !! sym = Some q /\
              0 < totalAmount q)) /\
  NoDup (List.map symbol (resolvePositions txs prices)).
Proof.
  split; [split|].
  - intros [p [Hin Hsym]].
    destruct (reported_symbol _ _ _ _ Hin Hsym) as [q [Hq [_ Hpos]]]. eauto.
  - intros [q [Hq Hpos]]. exists (valuePosition prices q). split.
    + apply In_resolvePositions. exists q.
      rewrite (keyed_foldTransactions _ _ _ _ Hq). now repeat split.
    + cbn. apply (keyed_foldTransactions _ _ _ _ Hq).
  - unfold resolvePositions. apply NoDup_map_filter.
    rewrite symbols_of_values by apply keyed_foldTransactions.
    apply NoDup_fst_map_to_list.
Qed.

(** Scenario C: a position whose folded held amount is 0 or less is absent
    from the reported positions. *)
Corollary nonpositive_held_not_reported txs prices sym q :
  foldTransactions prices txs !! sym = Some q -> totalAmount q <= 0 ->
  forall p, In p (resolvePositions txs prices) -> symbol p <> sym.
Proof.
  intros Hq Hle p Hin Hsym.
  destruct (reported_symbol _ _ _ _ Hin Hsym) as [q' [Hq' [_ Hpos]]].
  rewrite Hq in Hq'. injection Hq' as <-. lra.
Qed.

(** C9. Every reported position carries the price of its symbol in the
    price map, or 0 when the map has none; its value is held times price;
    its P&L is value minus invested; its P&L percentage is
    P&L / invested * 100 when invested is positive and 0 otherwise. *)
Theorem reported_derived_fields txs prices p :
  In p (resolvePositions txs prices) ->
  match prices !! symbol p with
  | Some price => currentPrice p == price
  | None => currentPrice p = 0
  end /\
  currentValue p = totalAmount p * currentPrice p /\
  pnl p = currentValue p - totalInvested p /\
  (0 < totalInvested p ->
   pnlPercentage p = pnl p / totalInvested p * 100) /\
  (totalInvested p <= 0 -> pnlPercentage p = 0).
Proof.
  intros Hin. apply In_resolvePositions in Hin as [q [_ [-> _]]]. cbn.
  repeat split.
  - destruct (prices !! symbol q) as [price|]; cbn; [|reflexivity].
    destruct (Qeq_bool price 0) eqn:E; [|reflexivity].
    apply Qeq_bool_iff in E. now symmetry.
  - intros Hpos. apply Qltb_lt in Hpos. now rewrite Hpos.
  - intros Hle. apply Qltb_ge in Hle. now rewrite Hle.
Qed.

(** ** Buys *)

Lemma buy_step prices txs t :
  type t = buy ->
  foldTransactions prices (txs ++ [t]) !! toUpperCase (tokenSymbol t) =
  Some (applyBuy
          (pushTransaction
             (positionOf prices (foldTransactions prices txs)
                (toUpperCase (tokenSymbol t))) t) t).
Proof.
  intros Hbuy.
  now rewrite foldTransactions_snoc, applyTransaction_lookup, Hbuy.
Qed.

Lemma totalHeld_snoc txs t :
  totalHeld (txs ++ [t]) == totalHeld txs + amount t.
Proof.
  unfold totalHeld.
  induction txs as [|u txs IH]; cbn; [ring|]. rewrite IH. ring.
Qed.

Lemma totalSpent_snoc txs t :
  totalSpent (txs ++ [t]) == totalSpent txs + amount t * pricePerToken t.
Proof.
  unfold totalSpent.
  induction txs as [|u txs IH]; cbn; [ring|]. rewrite IH. ring.
Qed.

Lemma totalHeld_positive txs :
  txs <> [] -> Forall (fun t => 0 < amount t) txs -> 0 < totalHeld txs.
Proof.
  intros Hne Hall. induction Hall as [|t txs Ht Hall IH]; [congruence|].
  change (0 < amount t + totalHeld txs).
  destruct txs as [|u txs].
  - change (0 < amount t + 0). lra.
  - assert (0 < totalHeld (u :: txs)) by now apply IH. lra.
Qed.

(** After a sequence of purchases of one symbol, the folded position holds
    the sum of the amounts and has the sum of the costs invested. *)
Lemma buys_totals prices sym txs :
  Forall (buyOf sym) txs -> Forall consistent txs ->
  let p := positionOf prices (foldTransactions prices txs) sym in
  totalAmount p == totalHeld txs /\ totalInvested p == totalSpent txs.
Proof.
  induction txs as [|t txs IH] using rev_ind; intros Hbuys Hcons p.
  - subst p. unfold positionOf, foldTransactions. cbn.
    rewrite lookup_empty. cbn. split; reflexivity.
  - apply Forall_app in Hbuys as [Hbuys Hb], Hcons as [Hcons Hc].
    apply Forall_inv in Hb as [Hbuy Hsym], Hc.
    destruct (IH Hbuys Hcons) as [Hheld Hspent].
    subst p sym. unfold positionOf at 1 2.
    rewrite (buy_step _ _ _ Hbuy). cbn.
    rewrite totalHeld_snoc, totalSpent_snoc, Hheld, Hspent.
    unfold consistent in Hc. rewrite Hc. split; reflexivity.
Qed.

(** C1 (amended). Processing a purchase of amount [a] at unit price [p]
    after any folded sequence adds [a * p] to the invested amount and [a] to
    the held amount of the symbol; the average cost becomes invested / held
    when the new held amount is positive and 0 otherwise.  Hence after any
    sequence of purchases of one symbol the position holds the total bought
    and has the total spent invested, and whenever the total held is
    positive - as it is when every amount is positive - its average cost is
    exactly total spent / total held. *)
Theorem buy_updates_cost_basis prices txs t :
  type t = buy -> consistent t ->
  let sym := toUpperCase (tokenSymbol t) in
  let before := positionOf prices (foldTransactions prices txs) sym in
  exists after,
    foldTransactions prices (txs ++ [t]) !! sym = Some after /\
    totalInvested after ==
      totalInvested before + amount t * pricePerToken t /\
    totalAmount after = totalAmount before + amount t /\
    (0 < totalAmount after ->
     avgCostBasis after = totalInvested after / totalAmount after) /\
    (totalAmount after <= 0 -> avgCostBasis after = 0) /\
    (Forall (buyOf sym) txs -> Forall consistent txs ->
     totalAmount after == totalHeld (txs ++ [t]) /\
     totalInvested after == totalSpent (txs ++ [t]) /\
     (0 < totalHeld (txs ++ [t]) ->
      avgCostBasis after ==
        totalSpent (txs ++ [t]) / totalHeld (txs ++ [t])) /\
     (Forall (fun u => 0 < amount u) (txs ++ [t]) ->
      0 < totalHeld (txs ++ [t]))).
Proof.
  intros Hbuy Hc sym before.
  eexists. split; [now apply buy_step|]. cbn. fold sym before.
  split; [unfold consistent in Hc; now rewrite Hc|].
  split; [reflexivity|].
  split; [intros Hpos; apply Qltb_lt in Hpos; now rewrite Hpos|].
  split; [intros Hle; apply Qltb_ge in Hle; now rewrite Hle|].
  intros Hbuys Hcons.
  destruct (buys_totals prices sym txs Hbuys Hcons) as [Hheld Hspent].
  fold before in Hheld, Hspent.
  assert (Hheld' : totalAmount before + amount t == totalHeld (txs ++ [t]))
    by (rewrite totalHeld_snoc, Hheld; reflexivity).
  assert (Hspent' : totalInvested before + totalValue t ==
                    totalSpent (txs ++ [t])).
  { unfold consistent in Hc.
    rewrite totalSpent_snoc, Hspent, Hc. reflexivity. }
  repeat split; try assumption.
  - intros Hpos.
    assert (Hb : Qltb 0 (totalAmount before + amount t) = true)
      by (apply Qltb_lt; now rewrite Hheld').
    rewrite Hb, Hheld', Hspent'. reflexivity.
  - apply totalHeld_positive. now destruct txs.
Qed.

(** ** Sells *)

Lemma sell_step prices txs t :
  type t = sell ->
  foldTransactions prices (txs ++ [t]) !! toUpperCase (tokenSymbol t) =
  Some (applySell
          (pushTransaction
             (positionOf prices (foldTransactions prices txs)
                (toUpperCase (tokenSymbol t))) t) t).
Proof.
  intros Hsell.
  now rewrite foldTransactions_snoc, applyTransaction_lookup, Hsell.
Qed.

(** C2. Processing a sell of amount [a] after any folded sequence lowers the
    held amount of the symbol by [a], lowers the invested amount by [a]
    times the average cost the position had before the sell (the sale
    price is not used), and leaves the average cost as it was; the sell
    branch keeps the average cost of every position it is applied to. *)
Theorem sell_keeps_average_cost prices txs t :
  type t = sell ->
  let sym := toUpperCase (tokenSymbol t) in
  let before := positionOf prices (foldTransactions prices txs) sym in
  exists after,
    foldTransactions prices (txs ++ [t]) !! sym = Some after /\
    totalAmount after = totalAmount before - amount t /\
    totalInvested after =
      totalInvested before - amount t * avgCostBasis before /\
    avgCostBasis after = avgCostBasis before /\
    forall p, avgCostBasis (applySell p t) = avgCostBasis p.
Proof.
  intros Hsell sym before.
  eexists. split; [now apply sell_step|]. cbn. repeat split.
Qed.

(** A sell changes the position of no other symbol. *)
Lemma transaction_frame prices txs t sym :
  toUpperCase (tokenSymbol t) <> sym ->
  foldTransactions prices (txs ++ [t]) !! sym =
  foldTransactions prices txs !! sym.
Proof.
  intros Hne. rewrite foldTransactions_snoc.
  now apply applyTransaction_lookup_ne.
Qed.

(** C5. A sell of more than is held is applied like any other sell: the
    fold stores the position with held = held - amount, which is negative,
    and that position is among the values handed to the final filter; the
    filter alone keeps it out of the reported positions. *)
Theorem oversell_applied_then_filtered prices txs t :
  type t = sell ->
  let sym := toUpperCase (tokenSymbol t) in
  let before := positionOf prices (foldTransactions prices txs) sym in
  totalAmount before < amount t ->
  exists after,
    foldTransactions prices (txs ++ [t]) !! sym = Some after /\
    totalAmount after = totalAmount before - amount t /\
    totalAmount after < 0 /\
    In (valuePosition prices after)
       (List.map (valuePosition prices)
          (values (foldTransactions prices (txs ++ [t])))) /\
    forall p, In p (resolvePositions (txs ++ [t]) prices) -> symbol p <> sym.
Proof.
  intros Hsell sym before Hover.
  pose proof (sell_step prices txs t Hsell) as Hafter.
  eexists. split; [exact Hafter|]. cbn. fold sym before.
  repeat split.
  - lra.
  - apply in_map, In_values. eauto.
  - apply (nonpositive_held_not_reported _ _ _ _ Hafter). cbn.
    fold sym before. lra.
Qed.

(** ** Searching the history *)

Lemma findIndex_found {A : Type} (f : A -> bool) (l : list A) :
  (0 <= findIndex f l)%Z ->
  exists x, l !! Z.to_nat (findIndex f l) = Some x /\ f x = true /\
            forall j y, (j < Z.to_nat (findIndex f l))%nat ->
                        l !! j = Some y -> f y = false.
Proof.
  induction l as [|a l IH]; cbn; [lia|].
  destruct (f a) eqn:Ha.
  - intros _. exists a. repeat split; [assumption|].
    intros j y Hj. cbn in Hj. lia.
  - destruct (findIndex f l <? 0)%Z eqn:Hneg; [lia|]. intros _.
    apply Z.ltb_ge in Hneg. destruct (IH Hneg) as [x [Hx [Hfx Hfirst]]].
    replace (Z.to_nat (findIndex f l + 1)) with (S (Z.to_nat (findIndex f l)))
      by lia.
    exists x. repeat split; [assumption..|].
    intros [|j] y Hj; cbn; [congruence|]. apply Hfirst. lia.
Qed.

Lemma findIndex_absent {A : Type} (f : A -> bool) (l : list A) :
  (findIndex f l < 0)%Z <-> Forall (fun x => f x = false) l.
Proof.
  induction l as [|a l IH]; cbn.
  - split; [constructor | lia].
  - destruct (f a) eqn:Ha.
    + split; [lia|]. intros H. apply Forall_inv in H. congruence.
    + destruct (findIndex f l <? 0)%Z eqn:Hneg.
      * apply Z.ltb_lt in Hneg. split; [|lia]. intros _.
        constructor; [assumption | now apply IH].
      * apply Z.ltb_ge in Hneg. split; [lia|]. intros H.
        apply Forall_inv_tail in H. apply IH in H. lia.
Qed.

Lemma no_entry_for_date (h : list DailyPnL) today :
  (findIndex (fun entry => String.eqb (date entry) today) h < 0)%Z <->
  ~ In today (List.map date h).
Proof.
  rewrite findIndex_absent, Forall_forall, in_map_iff. split.
  - intros H [e [He Hin]]. apply list_elem_of_In in Hin.
    specialize (H e Hin). cbn in H.
    apply String.eqb_neq in H. congruence.
  - intros H e Hin. apply String.eqb_neq. intros He. apply H.
    exists e. split; [assumption|]. now apply list_elem_of_In.
Qed.

(** ** The daily history *)

Lemma trackDailyPnL_skip positions startBalance h today :
  getTotalPortfolioValue positions == 0 ->
  trackDailyPnL positions startBalance h today = h.
Proof.
  intros Hzero. unfold trackDailyPnL.
  apply Qeq_bool_iff in Hzero. now rewrite Hzero.
Qed.

Lemma trackDailyPnL_append positions startBalance h today :
  ~ getTotalPortfolioValue positions == 0 ->
  ~ In today (List.map date h) ->
  trackDailyPnL positions startBalance h today =
  h ++ [dailyEntry today (getTotalPortfolioValue positions)
          (match last h with
           | Some e => portfolioValue e
           | None => startBalance
           end)].
Proof.
  intros Hcv Hnew. unfold trackDailyPnL.
  destruct (Qeq_bool _ 0) eqn:E; [now apply Qeq_bool_iff in E|].
  apply no_entry_for_date in Hnew.
  destruct (0 <=? _)%Z eqn:Hidx; [apply Z.leb_le in Hidx; lia | reflexivity].
Qed.

(** The value a same-day update is compared with: the value of the entry
    just before today's, unless there is none or it is 0, when the starting
    balance is used. *)
Lemma trackDailyPnL_update positions startBalance h today :
  ~ getTotalPortfolioValue positions == 0 ->
  In today (List.map date h) ->
  exists i old,
    h !! i = Some old /\ date old = today /\
    (forall j e, (j < i)%nat -> h !! j = Some e -> date e <> today) /\
    trackDailyPnL positions startBalance h today =
    <[i := dailyEntry today (getTotalPortfolioValue positions)
             (orElse (portfolioValue <$> at_index h (Z.of_nat i - 1))
                startBalance)]> h.
Proof.
  intros Hcv Hin. unfold trackDailyPnL.
  destruct (Qeq_bool _ 0) eqn:E; [now apply Qeq_bool_iff in E|].
  set (f := fun entry => String.eqb (date entry) today).
  destruct (0 <=? findIndex f h)%Z eqn:Hidx.
  - apply Z.leb_le in Hidx.
    destruct (findIndex_found f h Hidx) as [old [Hold [Hf Hfirst]]].
    exists (Z.to_nat (findIndex f h)), old.
    split; [assumption|]. split; [now apply String.eqb_eq in Hf|].
    split.
    + intros j e Hj He. apply String.eqb_neq. now apply (Hfirst j e).
    + now rewrite Z2Nat.id by assumption.
  - apply Z.leb_gt in Hidx. now apply no_entry_for_date in Hidx.
Qed.

(** C10. When the reported positions are worth exactly 0 in total, the
    daily effect leaves the history as it is, whatever the history holds:
    no entry is added and none is rewritten. *)
Theorem zero_value_sample_is_noop positions startBalance h today :
  getTotalPortfolioValue positions == 0 ->
  trackDailyPnL positions startBalance h today = h.
Proof. apply trackDailyPnL_skip. Qed.

(** C8. A sample that adds an entry - the total value is not 0 and the
    history has no entry for the day - compares the value with the value of
    the last entry of the history, or with the starting balance when the
    history is empty; the entry it appends records the day, the value, the
    change value - previous, and the percentage change / previous * 100 when
    the previous value is positive and 0 otherwise. *)
Theorem new_entry_compares_with_last positions startBalance h today :
  ~ getTotalPortfolioValue positions == 0 ->
  ~ In today (List.map date h) ->
  let value := getTotalPortfolioValue positions in
  let previousValue := match last h with
                       | Some e => portfolioValue e
                       | None => startBalance
                       end in
  exists entry,
    trackDailyPnL positions startBalance h today = h ++ [entry] /\
    date entry = today /\
    portfolioValue entry = value /\
    dailyChange entry = value - previousValue /\
    (0 < previousValue ->
     dailyChangePercentage entry = dailyChange entry / previousValue * 100) /\
    (previousValue <= 0 -> dailyChangePercentage entry = 0) /\
    (h = [] -> previousValue = startBalance).
Proof.
  intros Hcv Hnew value previousValue.
  eexists. split; [now apply trackDailyPnL_append|]. cbn.
  fold value previousValue. repeat split.
  - intros Hpos. apply Qltb_lt in Hpos. now rewrite Hpos.
  - intros Hle. apply Qltb_ge in Hle. now rewrite Hle.
  - now intros ->.
Qed.

Lemma dates_insert (h : list DailyPnL) i old entry :
  h !! i = Some old -> date entry = date old ->
  List.map date (<[i := entry]> h) = List.map date h.
Proof.
  intros Hold Hdate.
  change (date <$> <[i := entry]> h = date <$> h).
  rewrite list_fmap_insert. apply list_insert_id.
  now rewrite list_lookup_fmap, Hold, Hdate.
Qed.

Lemma trackDailyPnL_dates positions startBalance h today :
  In today (List.map date h) ->
  List.map date (trackDailyPnL positions startBalance h today) =
  List.map date h.
Proof.
  intros Hin.
  destruct (Qeq_dec (getTotalPortfolioValue positions) 0) as [Hz|Hnz].
  - now rewrite trackDailyPnL_skip.
  - destruct (trackDailyPnL_update positions startBalance h today Hnz Hin)
      as [i [old [Hold [Hdate [_ ->]]]]].
    now apply (dates_insert h i old).
Qed.

Lemma trackDailyPnL_NoDup positions startBalance h today :
  NoDup (List.map date h) ->
  NoDup (List.map date (trackDailyPnL positions startBalance h today)).
Proof.
  intros Hnd.
  destruct (in_dec String.string_dec today (List.map date h)) as [Hin|Hnew].
  - now rewrite trackDailyPnL_dates.
  - destruct (Qeq_dec (getTotalPortfolioValue positions) 0) as [Hz|Hnz].
    + now rewrite trackDailyPnL_skip.
    + rewrite trackDailyPnL_append, List.map_app by assumption. cbn.
      apply NoDup_app. split; [assumption|]. split.
      * intros d Hd Hd'. apply list_elem_of_In in Hd.
        apply list_elem_of_In in Hd'. destruct Hd' as [<-|[]]. tauto.
      * apply NoDup_singleton.
Qed.

Lemma reachable_NoDup h : reachable h -> NoDup (List.map date h).
Proof.
  induction 1 as [|positions startBalance h today _ IH]; [constructor|].
  now apply trackDailyPnL_NoDup.
Qed.

(** C7 (amended). Every history the daily effect can build holds at most
    one entry per day, and a further sample keeps it so: on a day that has
    an entry the dates of the history stay as they are and, unless the
    total value is 0, that entry is replaced in place by one holding the new
    value; on a day without an entry exactly one entry is appended, unless
    the total value is 0; with a total value of 0 the history is left as it
    is. *)
Theorem one_entry_per_date h positions startBalance today :
  reachable h ->
  let value := getTotalPortfolioValue positions in
  let h' := trackDailyPnL positions startBalance h today in
  NoDup (List.map date h) /\
  NoDup (List.map date h') /\
  (In today (List.map date h) -> List.map date h' = List.map date h) /\
  (In today (List.map date h) -> ~ value == 0 ->
   exists i old entry,
     h !! i = Some old /\ date old = today /\ h' = <[i := entry]> h /\
     date entry = today /\ portfolioValue entry = value) /\
  (~ In today (List.map date h) -> ~ value == 0 ->
   exists entry, h' = h ++ [entry] /\ date entry = today /\
                 portfolioValue entry = value) /\
  (value == 0 -> h' = h).
Proof.
  intros Hreach value h'. subst value h'.
  split; [now apply reachable_NoDup|].
  split; [now apply trackDailyPnL_NoDup, reachable_NoDup|].
  split; [apply trackDailyPnL_dates|].
  split; [|split].
  - intros Hin Hnz.
    destruct (trackDailyPnL_update positions startBalance h today Hnz Hin)
      as [i [old [Hold [Hdate [_ Heq]]]]].
    exists i, old. eexists. split; [exact Hold|]. split; [exact Hdate|].
    split; [exact Heq|]. split; reflexivity.
  - intros Hnew Hnz. eexists.
    split; [now apply trackDailyPnL_append|]. now split.
  - apply trackDailyPnL_skip.
Qed.

(** No entry of a reachable history has the value 0. *)
Lemma reachable_nonzero h :
  reachable h -> Forall (fun e => ~ portfolioValue e == 0) h.
Proof.
  induction 1 as [|positions startBalance h today _ IH]; [constructor|].
  destruct (Qeq_dec (getTotalPortfolioValue positions) 0) as [Hz|Hnz].
  - now rewrite trackDailyPnL_skip.
  - destruct (in_dec String.string_dec today (List.map date h)) as [Hin|Hnew].
    + destruct (trackDailyPnL_update positions startBalance h today Hnz Hin)
        as [i [old [_ [_ [_ ->]]]]].
      now apply Forall_insert.
    + rewrite trackDailyPnL_append by assumption.
      apply Forall_app. split; [assumption|]. now repeat constructor.
Qed.

(** C4 (amended). When the total value is not 0 and the history has an
    entry for the day, the first such entry is replaced in place and the
    other entries are kept.  The value it is compared with is the value of
    the entry stored just before it - the second to last entry when the
    day's entry is the last one; when the day's entry is the first of the
    history, or that earlier value is 0 (which no reachable history holds),
    the starting balance is used instead.  The day's own earlier entry plays
    no part: replacing it by any other entry for the day gives the same
    result. *)
Theorem resample_compares_with_preceding_entry positions startBalance h today :
  ~ getTotalPortfolioValue positions == 0 ->
  In today (List.map date h) ->
  let value := getTotalPortfolioValue positions in
  exists i old previousValue,
    h !! i = Some old /\ date old = today /\
    (forall j e, (j < i)%nat -> h !! j = Some e -> date e <> today) /\
    trackDailyPnL positions startBalance h today =
      <[i := dailyEntry today value previousValue]> h /\
    match i with
    | O => previousValue = startBalance
    | S j => exists e, h !! j = Some e /\
                       previousValue =
                         (if Qeq_bool (portfolioValue e) 0 then startBalance
                          else portfolioValue e) /\
                       (reachable h -> previousValue = portfolioValue e) /\
                       (S i = length h -> S (S j) = length h)
    end /\
    forall old', date old' = today ->
      trackDailyPnL positions startBalance (<[i := old']> h) today =
      trackDailyPnL positions startBalance h today.
Proof.
  intros Hnz Hin value.
  destruct (trackDailyPnL_update positions startBalance h today Hnz Hin)
    as [i [old [Hold [Hdate [Hfirst Heq]]]]].
  exists i, old. eexists. split; [assumption|]. split; [assumption|].
  split; [assumption|]. split; [exact Heq|]. split.
  - destruct i as [|j]; [reflexivity|].
    destruct (h !! j) as [e|] eqn:He.
    + exists e. split; [reflexivity|]. unfold at_index.
      destruct (Z.ltb_spec (Z.of_nat (S j) - 1) 0); [lia|].
      replace (Z.to_nat (Z.of_nat (S j) - 1)) with j by lia.
      rewrite He. cbn. split; [reflexivity|]. split; [|lia].
      intros Hreach. apply reachable_nonzero in Hreach.
      rewrite Forall_lookup in Hreach. specialize (Hreach j e He).
      destruct (Qeq_bool (portfolioValue e) 0) eqn:E; [|reflexivity].
      now apply Qeq_bool_iff in E.
    + apply lookup_ge_None in He. apply lookup_lt_Some in Hold. lia.
  - intros old' Hdate'.
    assert (Hin' : In today (List.map date (<[i := old']> h))).
    { rewrite (dates_insert h i old) by congruence. assumption. }
    destruct (trackDailyPnL_update positions startBalance _ today Hnz Hin')
      as [i' [old2 [Hold2 [Hdate2 [Hfirst2 Heq2]]]]].
    assert (Hi : i' = i).
    { destruct (Nat.lt_trichotomy i' i) as [Hlt|[Heqi|Hgt]]; [|assumption|].
      - rewrite list_lookup_insert_ne in Hold2 by lia.
        now destruct (Hfirst i' old2 Hlt Hold2).
      - destruct (Hfirst2 i old' Hgt); [|assumption].
        apply list_lookup_insert_eq. now apply lookup_lt_Some in Hold. }
    subst i'. rewrite Heq2, Heq, list_insert_insert_eq.
    f_equal. f_equal. f_equal.
    unfold at_index. destruct (Z.of_nat i - 1 <? 0)%Z eqn:E; [reflexivity|].
    apply Z.ltb_ge in E. f_equal. apply list_lookup_insert_ne. lia.
Qed.

(** ** Adding a transaction *)

Lemma isEmpty_true s : isEmpty s = true <-> s = EmptyString.
Proof. apply String.eqb_eq. Qed.

Lemma isEmpty_false s : isEmpty s = false <-> s <> EmptyString.
Proof. apply String.eqb_neq. Qed.

(** The ledger entries [addTransaction] builds are consistent. *)
Lemma buildTransaction_consistent parseFloat now f :
  consistent (buildTransaction parseFloat now f).
Proof. unfold consistent. cbn. reflexivity. Qed.

Lemma addTransaction_consistent parseFloat now f txs :
  Forall consistent txs ->
  Forall consistent (addTransaction parseFloat now f txs).
Proof.
  intros Hall. unfold addTransaction.
  destruct (_ || _); [assumption|].
  apply Forall_app. split; [assumption|].
  constructor; [apply buildTransaction_consistent | constructor].
Qed.

(** C3 (amended). [addTransaction] leaves the ledger as it is, raising no
    error, when the symbol, the amount text or the price text is empty.
    Every other submission is appended at the end of the ledger with the
    parsed amount and price, whatever their sign: an amount of 0 or less
    and a negative price are accepted. *)
Theorem addTransaction_appends_unless_blank parseFloat now f txs :
  (formSymbol f = EmptyString \/ formAmount f = EmptyString \/
   formPrice f = EmptyString ->
   addTransaction parseFloat now f txs = txs) /\
  (formSymbol f <> EmptyString -> formAmount f <> EmptyString ->
   formPrice f <> EmptyString ->
   exists t,
     addTransaction parseFloat now f txs = txs ++ [t] /\
     tokenSymbol t = toUpperCase (formSymbol f) /\
     type t = formType f /\
     amount t = parseFloat (formAmount f) /\
     pricePerToken t = parseFloat (formPrice f) /\
     totalValue t = parseFloat (formAmount f) * parseFloat (formPrice f)).
Proof.
  unfold addTransaction. split.
  - intros H.
    assert (E : isEmpty (formSymbol f) || isEmpty (formAmount f)
                || isEmpty (formPrice f) = true).
    { rewrite !orb_true_iff, !isEmpty_true. tauto. }
    now rewrite E.
  - intros Hs Ha Hp.
    apply isEmpty_false in Hs, Ha, Hp. rewrite Hs, Ha, Hp. cbn.
    eexists. split; [reflexivity|]. cbn. now repeat split.
Qed.

(** C3, as stated, fails: a submission with the amount -5 is appended. *)
Lemma negative_amount_is_appended :
  exists t,
    addTransaction parseDecimal 1700000000000 negativeAmountForm [] = [t] /\
    amount t == -5 /\ amount t <= 0.
Proof.
  eexists. split; [reflexivity|]. cbn. split; [reflexivity|].
  vm_compute. discriminate.
Qed.

(** C1, as stated, fails: after a sale of a Bitcoin that was not held, a
    purchase of half a Bitcoin at 100 leaves 50 invested and -0.5 held, and
    the average cost is 0, not 50 / -0.5. *)
Lemma buy_after_oversell_average_is_zero :
  exists p,
    foldTransactions ∅ oversoldThenBought !! "BTC" = Some p /\
    totalInvested p == 50 /\ totalAmount p == -0.5 /\
    avgCostBasis p == 0 /\
    ~ avgCostBasis p == totalInvested p / totalAmount p.
Proof.
  eexists. split; [vm_compute; reflexivity|]. cbn.
  repeat split; try (vm_compute; reflexivity). vm_compute. discriminate.
Qed.

(** C7, as stated, fails: with no position reported the total value is 0,
    and a sample on a day without an entry appends nothing. *)
Lemma zero_value_new_date_appends_nothing :
  reachable [] /\ ~ In newYear (List.map date []) /\
  trackDailyPnL [] 0 [] newYear = [] /\
  ~ exists entry, trackDailyPnL [] 0 [] newYear = [] ++ [entry].
Proof.
  split; [constructor|]. split; [intros []|]. split; [reflexivity|].
  intros [entry H]. discriminate H.
Qed.

(** C4, as stated, fails: when the day's entry is the only entry of the
    history there is no earlier entry, and the value is compared with the
    starting balance (500 here), which is the value of no entry. *)
Lemma resample_first_entry_uses_start_balance :
  In newYear (List.map date (onlyEntry newYear)) /\
  Forall (fun e => ~ portfolioValue e == 500) (onlyEntry newYear) /\
  exists entry,
    trackDailyPnL oneBitcoin 500 (onlyEntry newYear) newYear = [entry] /\
    portfolioValue entry == 120 /\
    dailyChange entry == 120 - 500.
Proof.
  split; [now left|]. split.
  - repeat constructor. vm_compute. discriminate.
  - eexists. split; [vm_compute; reflexivity|]. cbn.
    split; vm_compute; reflexivity.
Qed.

(** ** The scenarios of the specification *)

(** Scenario A: 0.5 Bitcoin bought at 45000 and 0.5 at 47000 give an
    average cost of 46000, 1 held and 46000 invested. *)
Lemma scenarioA_average_cost :
  exists p,
    foldTransactions ∅ scenarioA !! "BTC" = Some p /\
    avgCostBasis p == 46000 /\ totalAmount p == 1 /\
    totalInvested p == 46000.
Proof.
  destruct (buy_updates_cost_basis ∅ [btc buy 0.5 45000] (btc buy 0.5 47000))
    as (after & Hlookup & _ & _ & _ & _ & Hbuys);
    [reflexivity | unfold consistent; reflexivity |].
  destruct Hbuys as (Hheld & Hspent & Havg & Hpos);
    [repeat constructor; unfold consistent; reflexivity..|].
  exists after. split; [exact Hlookup|].
  rewrite Havg, Hheld, Hspent; [|vm_compute; reflexivity].
  repeat split; vm_compute; reflexivity.
Defined.

(** Scenario B, for a sale at 60000: 0.8 held, 36800 invested, and the
    average cost still 46000. *)
Lemma scenarioB_keeps_average_cost :
  exists p,
    foldTransactions ∅ (scenarioB 60000) !! "BTC" = Some p /\
    totalAmount p == 0.8 /\ totalInvested p == 36800 /\
    avgCostBasis p == 46000.
Proof.
  destruct (sell_keeps_average_cost ∅ scenarioA (btc sell 0.2 60000))
    as (after & Hlookup & Hheld & Hinvested & Hcost & _); [reflexivity|].
  exists after. split; [exact Hlookup|].
  rewrite Hheld, Hinvested, Hcost.
  repeat split; vm_compute; reflexivity.
Defined.

(** Scenario B for every sale price and every price map. *)
Lemma scenarioB_any_price prices salePrice :
  exists p,
    foldTransactions prices (scenarioB salePrice) !! "BTC" = Some p /\
    totalAmount p == 0.8 /\ totalInvested p == 36800 /\
    avgCostBasis p == 46000.
Proof.
  eexists.
  split; [exact (sell_step prices scenarioA (btc sell 0.2 salePrice) eq_refl)|].
  repeat split; vm_compute; reflexivity.
Qed.

(** Selling 2 Bitcoin when 1 is held: the position is stored with -1 held
    and no Bitcoin position is reported. *)
Lemma oversell_of_scenarioA :
  exists after,
    foldTransactions (btcAt 50000) (scenarioA ++ [btc sell 2 50000]) !! "BTC"
      = Some after /\
    totalAmount after < 0 /\
    forall p,
      In p (resolvePositions (scenarioA ++ [btc sell 2 50000]) (btcAt 50000)) ->
      symbol p <> "BTC".
Proof.
  destruct (oversell_applied_then_filtered (btcAt 50000) scenarioA
              (btc sell 2 50000))
    as (after & Hlookup & _ & Hneg & _ & Hout);
    [reflexivity | vm_compute; reflexivity |].
  exists after. split; [exact Hlookup|]. split; [exact Hneg | exact Hout].
Defined.

(** The position reported after scenario A at a price of 50000 is worth
    held times price and shows value minus invested as P&L. *)
Lemma scenarioA_reported_fields :
  In scenarioAReported (resolvePositions scenarioA (btcAt 50000)) /\
  currentValue scenarioAReported =
    totalAmount scenarioAReported * currentPrice scenarioAReported /\
  pnl scenarioAReported =
    currentValue scenarioAReported - totalInvested scenarioAReported.
Proof.
  assert (Hin : In scenarioAReported (resolvePositions scenarioA (btcAt 50000)))
    by (vm_compute; left; reflexivity).
  split; [exact Hin|].
  destruct (reported_derived_fields scenarioA (btcAt 50000) scenarioAReported
              Hin) as (_ & Hvalue & Hpnl & _).
  split; [exact Hvalue | exact Hpnl].
Defined.

(** With no position reported the total value is 0 and a sample leaves a
    two-day history as it is. *)
Lemma empty_portfolio_sample :
  getTotalPortfolioValue [] == 0 /\
  trackDailyPnL [] 500 twoDays newYear = twoDays.
Proof.
  split; [reflexivity|].
  apply (zero_value_sample_is_noop [] 500 twoDays newYear). reflexivity.
Defined.

(** Scenario D: the first sample, with no starting balance, records a
    percentage of 0. *)
Lemma scenarioD_percentage_zero :
  exists entry,
    trackDailyPnL oneBitcoin 0 [] newYear = [entry] /\
    dailyChangePercentage entry = 0.
Proof.
  destruct (new_entry_compares_with_last oneBitcoin 0 [] newYear)
    as (entry & Heq & _ & _ & _ & _ & Hzero & _);
    [vm_compute; discriminate | intros [] |].
  exists entry. split; [exact Heq|]. apply Hzero. vm_compute. discriminate.
Defined.

(** Two samples on the same day leave one entry for that day. *)
Lemma same_day_twice_one_entry :
  NoDup (List.map date
           (trackDailyPnL oneBitcoin 0
              (trackDailyPnL oneBitcoin 0 [] newYear) newYear)).
Proof.
  exact (proj1 (proj2
           (one_entry_per_date (trackDailyPnL oneBitcoin 0 [] newYear)
              oneBitcoin 0 newYear
              (reachable_sample oneBitcoin 0 [] newYear reachable_empty)))).
Defined.

(** A second sample on [newYear] rewrites an entry of that day in place. *)
Lemma resample_of_twoDays :
  exists i old previousValue,
    twoDays !! i = Some old /\ date old = newYear /\
    trackDailyPnL oneBitcoin 500 twoDays newYear =
      <[i := dailyEntry newYear (getTotalPortfolioValue oneBitcoin)
               previousValue]> twoDays.
Proof.
  destruct (resample_compares_with_preceding_entry oneBitcoin 500 twoDays
              newYear)
    as (i & old & previousValue & Hold & Hdate & _ & Heq & _);
    [vm_compute; discriminate | right; left; reflexivity |].
  exists i, old, previousValue.
  split; [exact Hold|]. split; [exact Hdate | exact Heq].
Defined.

(** A submission with the amount -5 passes [addTransaction]. *)
Lemma negative_amount_passes :
  exists t,
    addTransaction parseDecimal 1700000000000 negativeAmountForm [] = [] ++ [t]
    /\ amount t = parseDecimal "-5".
Proof.
  destruct (proj2 (addTransaction_appends_unless_blank parseDecimal
                     1700000000000 negativeAmountForm []))
    as (t & Heq & _ & _ & Hamount & _); [discriminate..|].
  exists t. split; [exact Heq | exact Hamount].
Defined.


(** * Further properties *)

(** ** Totals *)

Lemma fold_left_plus {A : Type} (g : A -> Q) (l : list A) (a : Q) :
  fold_left (fun total x => total + g x) l a ==
  a + fold_left (fun total x => total + g x) l 0.
Proof.
  revert a. induction l as [|x l IH]; intros a; cbn; [ring|].
  rewrite (IH (a + g x)), (IH (0 + g x)). ring.
Qed.




(** ** Symbols and the transactions of a position *)

Lemma upper_ascii_idempotent c : upper_ascii (upper_ascii c) = upper_ascii c.
Proof. destruct c as [[] [] [] [] [] [] [] []]; reflexivity. Qed.

Lemma toUpperCase_idempotent s : toUpperCase (toUpperCase s) = toUpperCase s.
Proof.
  induction s as [|c s IH]; cbn; [reflexivity|].
  now rewrite upper_ascii_idempotent, IH.
Qed.



Lemma ofSymbol_snoc sym txs t :
  ofSymbol sym (txs ++ [t]) =
  ofSymbol sym txs ++
  (if String.eqb (toUpperCase (tokenSymbol t)) sym then [t] else []).
Proof.
  unfold ofSymbol. rewrite List.filter_app. cbn.
  now destruct (String.eqb (toUpperCase (tokenSymbol t)) sym).
Qed.

(** The position of [sym] after a step, whatever the transaction. *)
Lemma positionOf_snoc prices txs t sym :
  positionOf prices (foldTransactions prices (txs ++ [t])) sym =
  if String.eqb (toUpperCase (tokenSymbol t)) sym
  then match type t with
       | buy => applyBuy
       | sell => applySell
       end (pushTransaction
              (positionOf prices (foldTransactions prices txs) sym) t) t
  else positionOf prices (foldTransactions prices txs) sym.
Proof.
  rewrite foldTransactions_snoc. unfold positionOf at 1.
  destruct (String.eqb_spec (toUpperCase (tokenSymbol t)) sym) as [<-|Hne].
  - now rewrite applyTransaction_lookup.
  - now rewrite applyTransaction_lookup_ne.
Qed.

Lemma positionOf_transactions prices txs sym :
  transactions (positionOf prices (foldTransactions prices txs) sym) =
  ofSymbol sym txs.
Proof.
  induction txs as [|t txs IH] using rev_ind; [reflexivity|].
  rewrite positionOf_snoc, ofSymbol_snoc.
  destruct (String.eqb (toUpperCase (tokenSymbol t)) sym).
  - destruct (type t); cbn; now rewrite IH.
  - now rewrite IH, app_nil_r.
Qed.

Lemma stored_has_transaction prices txs sym q :
  foldTransactions prices txs !! sym = Some q ->
  exists t, In t txs /\ toUpperCase (tokenSymbol t) = sym.
Proof.
  induction txs as [|t txs IH] using rev_ind.
  - unfold foldTransactions. cbn. now rewrite lookup_empty.
  - rewrite foldTransactions_snoc.
    destruct (String.eqb_spec (toUpperCase (tokenSymbol t)) sym) as [<-|Hne].
    + intros _. exists t. split; [|reflexivity].
      apply in_or_app. right. now left.
    + rewrite applyTransaction_lookup_ne by assumption. intros Hq.
      destruct (IH Hq) as [u [Hu Hsym]]. exists u. split; [|assumption].
      apply in_or_app. now left.
Qed.

(** X3. Every reported position carries exactly the transactions of the
    ledger whose symbol, in upper case, is its own, in ledger order; there is
    at least one, and the reported symbol is in upper case. *)
Theorem reported_transactions txs prices p :
  In p (resolvePositions txs prices) ->
  transactions p = ofSymbol (symbol p) txs /\
  transactions p <> [] /\
  toUpperCase (symbol p) = symbol p.
Proof.
  intros Hin. apply In_resolvePositions in Hin as [q [Hq [-> _]]]. cbn.
  assert (Htx : transactions q = ofSymbol (symbol q) txs).
  { rewrite <- (positionOf_transactions prices txs (symbol q)).
    unfold positionOf. now rewrite Hq. }
  destruct (stored_has_transaction _ _ _ _ Hq) as [t [Hin Hsym]].
  split; [assumption|]. split.
  - rewrite Htx. intros Hnil.
    assert (Ht : In t (ofSymbol (symbol q) txs)).
    { apply filter_In. split; [assumption|]. now apply String.eqb_eq. }
    rewrite Hnil in Ht. destruct Ht.
  - rewrite <- Hsym. apply toUpperCase_idempotent.
Qed.

(** ** The held amount *)







(** ** Cost basis of a ledger that is never oversold *)





(** ** A new transaction and the other symbols *)

Lemma addTransaction_cases parseFloat now f txs :
  addTransaction parseFloat now f txs = txs \/
  addTransaction parseFloat now f txs =
    txs ++ [buildTransaction parseFloat now f].
Proof. unfold addTransaction. destruct (_ || _); auto. Qed.

(** X7. Submitting the form changes the position of no symbol other than
    the form's symbol in upper case: the stored position and the reported
    positions of every other symbol are what they were. *)
Theorem addTransaction_frame parseFloat now f txs prices sym :
  sym <> toUpperCase (formSymbol f) ->
  foldTransactions prices (addTransaction parseFloat now f txs) !! sym =
    foldTransactions prices txs !! sym /\
  forall p, symbol p = sym ->
    (In p (resolvePositions (addTransaction parseFloat now f txs) prices) <->
     In p (resolvePositions txs prices)).
Proof.
  intros Hne.
  assert (Hmap : foldTransactions prices (addTransaction parseFloat now f txs)
                   !! sym = foldTransactions prices txs !! sym).
  { destruct (addTransaction_cases parseFloat now f txs) as [->| ->];
      [reflexivity|].
    apply transaction_frame. cbn. rewrite toUpperCase_idempotent. congruence. }
  split; [assumption|]. intros p Hsym.
  rewrite !In_resolvePositions.
  split; intros [q [Hq [-> Hpos]]]; exists q; cbn in Hsym;
    rewrite Hsym in *; (split; [congruence | now split]).
Qed.

(** ** The list of transactions *)

Lemma insertByTime_perm t l : Permutation (insertByTime t l) (t :: l).
Proof.
  induction l as [|u l IH]; cbn; [reflexivity|].
  destruct (timestamp t <? timestamp u)%Z; [|reflexivity].
  rewrite IH. apply perm_swap.
Qed.

Lemma sortNewestFirst_perm txs : Permutation (sortNewestFirst txs) txs.
Proof.
  induction txs as [|t txs IH]; cbn; [reflexivity|].
  rewrite insertByTime_perm. now constructor.
Qed.

Lemma insertByTime_sorted t l :
  StronglySorted newerFirst l -> StronglySorted newerFirst (insertByTime t l).
Proof.
  induction 1 as [|u l Hs IH Hall]; cbn; [repeat constructor|].
  destruct (Z.ltb_spec (timestamp t) (timestamp u)) as [Hlt|Hge].
  - constructor; [assumption|].
    apply Forall_forall. intros x Hx. apply list_elem_of_In in Hx.
    apply (Permutation_in _ (insertByTime_perm t l)) in Hx as [<-|Hx].
    + unfold newerFirst. lia.
    + rewrite Forall_forall in Hall. apply Hall. now apply list_elem_of_In.
  - constructor; [now constructor|].
    constructor; [exact Hge|].
    eapply Forall_impl; [exact Hall|]. unfold newerFirst. intros x Hx. lia.
Qed.

Lemma insertByTime_stable ts t l :
  List.filter (fun u => (timestamp u =? ts)%Z) (insertByTime t l) =
  List.filter (fun u => (timestamp u =? ts)%Z) (t :: l).
Proof.
  induction l as [|u l IH]; [reflexivity|]. cbn [insertByTime].
  destruct (Z.ltb_spec (timestamp t) (timestamp u)) as [Hlt|Hge];
    [|reflexivity].
  cbn [List.filter] in *. rewrite IH.
  destruct (Z.eqb_spec (timestamp u) ts), (Z.eqb_spec (timestamp t) ts);
    try reflexivity. lia.
Qed.

(** X8. The transactions tab lists the ledger rearranged, newest first; the
    transactions that share a timestamp keep their ledger order. *)
Theorem sortNewestFirst_sorts txs :
  Permutation (sortNewestFirst txs) txs /\
  StronglySorted newerFirst (sortNewestFirst txs) /\
  forall ts,
    List.filter (fun u => (timestamp u =? ts)%Z) (sortNewestFirst txs) =
    List.filter (fun u => (timestamp u =? ts)%Z) txs.
Proof.
  split; [apply sortNewestFirst_perm|]. split.
  - induction txs as [|t txs IH]; cbn; [constructor|].
    now apply insertByTime_sorted.
  - intros ts. induction txs as [|t txs IH]; [reflexivity|].
    cbn [sortNewestFirst fold_right]. rewrite insertByTime_stable.
    cbn [List.filter]. fold (sortNewestFirst txs). now rewrite IH.
Qed.

(** ** Today's entry *)

Lemma find_insert_first {A : Type} (f : A -> bool) (l : list A) i e :
  (i < length l)%nat -> f e = true ->
  (forall j y, (j < i)%nat -> l !! j = Some y -> f y = false) ->
  List.find f (<[i := e]> l) = Some e.
Proof.
  revert i. induction l as [|x l IH]; intros i Hi He Hfirst; cbn in Hi; [lia|].
  destruct i as [|i]; cbn; [now rewrite He|].
  assert (Hx : f x = false) by (apply (Hfirst 0%nat); [lia | reflexivity]).
  rewrite Hx.
  apply IH; [lia | assumption |].
  intros j y Hj Hy. apply (Hfirst (S j) y); [lia | exact Hy].
Qed.

Lemma find_snoc_first {A : Type} (f : A -> bool) (l : list A) e :
  Forall (fun x => f x = false) l -> f e = true ->
  List.find f (l ++ [e]) = Some e.
Proof.
  intros Hall He. induction Hall as [|x l Hx _ IH]; cbn; [now rewrite He|].
  now rewrite Hx.
Qed.

Lemma getTodaysPnL_none h today :
  getTodaysPnL h today = None <-> ~ In today (List.map date h).
Proof.
  unfold getTodaysPnL. rewrite in_map_iff. split.
  - intros Hnone [e [Hdate Hin]].
    apply (find_none _ _ Hnone) in Hin. apply String.eqb_neq in Hin.
    congruence.
  - intros Hnew.
    destruct (List.find _ h) as [e|] eqn:E; [|reflexivity].
    apply find_some in E as [Hin Hdate]. apply String.eqb_eq in Hdate.
    destruct Hnew. eauto.
Qed.

(** X9. After a sample with a total value other than 0 the entry shown for
    today is the one just written: it carries today's date and the current
    total value, whether the day had an entry before or not.  No entry is
    shown exactly when the history has none for the day. *)
Theorem todays_entry_after_sample positions balance h today :
  (getTodaysPnL h today = None <-> ~ In today (List.map date h)) /\
  (~ getTotalPortfolioValue positions == 0 ->
   exists entry,
     getTodaysPnL (trackDailyPnL positions balance h today) today =
       Some entry /\
     date entry = today /\
     portfolioValue entry = getTotalPortfolioValue positions).
Proof.
  split; [apply getTodaysPnL_none|]. intros Hnz. unfold getTodaysPnL.
  destruct (in_dec String.string_dec today (List.map date h)) as [Hin|Hnew].
  - destruct (trackDailyPnL_update positions balance h today Hnz Hin)
      as [i [old [Hold [Hdate [Hfirst ->]]]]].
    eexists. split.
    { apply find_insert_first.
      - now apply lookup_lt_Some in Hold.
      - cbn. apply String.eqb_refl.
      - intros j y Hj Hy. apply String.eqb_neq. now apply (Hfirst j y). }
    split; reflexivity.
  - rewrite trackDailyPnL_append by assumption.
    eexists. split.
    { apply find_snoc_first; [|cbn; apply String.eqb_refl].
      apply no_entry_for_date in Hnew. now apply findIndex_absent in Hnew. }
    split; reflexivity.
Qed.

(** X10. A sample never removes an entry and never touches the entry of
    another day: such an entry stays at its index as it is, and the history
    grows by at most one entry. *)
Theorem sample_keeps_other_days positions balance h today j e :
  h !! j = Some e -> date e <> today ->
  trackDailyPnL positions balance h today !! j = Some e /\
  (length h <= length (trackDailyPnL positions balance h today)
   <= S (length h))%nat.
Proof.
  intros He Hother.
  destruct (Qeq_dec (getTotalPortfolioValue positions) 0) as [Hz|Hnz].
  - rewrite trackDailyPnL_skip by assumption. split; [assumption | lia].
  - destruct (in_dec String.string_dec today (List.map date h)) as [Hin|Hnew].
    + destruct (trackDailyPnL_update positions balance h today Hnz Hin)
        as [i [old [Hold [Hdate [_ ->]]]]].
      rewrite length_insert. split; [|lia].
      rewrite list_lookup_insert_ne; [assumption|]. congruence.
    + rewrite trackDailyPnL_append by assumption.
      rewrite length_app. cbn. split; [|lia].
      rewrite lookup_app_l; [assumption|]. now apply lookup_lt_Some in He.
Qed.

(** X11. Once a reachable history starts with an entry of an earlier day,
    the starting balance plays no part in a sample: whatever balance is
    configured, the resulting history is the same. *)
Theorem start_balance_only_for_first_day positions h today first b1 b2 :
  reachable h -> h !! 0%nat = Some first -> date first <> today ->
  trackDailyPnL positions b1 h today = trackDailyPnL positions b2 h today.
Proof.
  intros Hreach Hfirst Hother.
  destruct (Qeq_dec (getTotalPortfolioValue positions) 0) as [Hz|Hnz].
  - now rewrite !trackDailyPnL_skip.
  - destruct (in_dec String.string_dec today (List.map date h)) as [Hin|Hnew].
    + destruct (trackDailyPnL_update positions b1 h today Hnz Hin)
        as [i [old [Hold [Hdate [Hfst ->]]]]].
      destruct (trackDailyPnL_update positions b2 h today Hnz Hin)
        as [i' [old' [Hold' [Hdate' [Hfst' ->]]]]].
      assert (Hi : i' = i).
      { destruct (Nat.lt_trichotomy i' i) as [Hlt|[Heq|Hgt]]; [|assumption|].
        - now destruct (Hfst i' old' Hlt Hold').
        - now destruct (Hfst' i old Hgt Hold). }
      subst i'. destruct i as [|k]; [congruence|].
      unfold at_index.
      destruct (Z.ltb_spec (Z.of_nat (S k) - 1) 0); [lia|].
      replace (Z.to_nat (Z.of_nat (S k) - 1)) with k by lia.
      destruct (h !! k) as [prev|] eqn:Hprev.
      * apply reachable_nonzero in Hreach.
        rewrite Forall_lookup in Hreach. specialize (Hreach k prev Hprev).
        cbn. destruct (Qeq_bool (portfolioValue prev) 0) eqn:E;
          [now apply Qeq_bool_iff in E | reflexivity].
      * apply lookup_ge_None in Hprev. apply lookup_lt_Some in Hold. lia.
    + rewrite !trackDailyPnL_append by assumption.
      destruct (last h) as [e|] eqn:E; [reflexivity|].
      apply last_None in E. now subst h.
Qed.

(** X12. On the first day - the history is empty, or starts with today's
    entry - saving a start balance and letting the daily effect run again
    measures today's change against the saved balance. *)
Theorem saved_balance_rebases_first_day parseFloat st positions h today :
  startBalanceInput st <> EmptyString ->
  ~ getTotalPortfolioValue positions == 0 ->
  (h = [] \/ exists first, h !! 0%nat = Some first /\ date first = today) ->
  let st' := setStartBalanceValue parseFloat st in
  startBalance st' = parseFloat (startBalanceInput st) /\
  startBalanceInput st' = EmptyString /\
  exists entry,
    getTodaysPnL (trackDailyPnL positions (startBalance st') h today) today =
      Some entry /\
    dailyChange entry =
      getTotalPortfolioValue positions - parseFloat (startBalanceInput st).
Proof.
  intros Hinput Hnz Hfirst st'. subst st'. unfold setStartBalanceValue.
  apply isEmpty_false in Hinput. rewrite Hinput. cbn.
  split; [reflexivity|]. split; [reflexivity|].
  unfold getTodaysPnL, trackDailyPnL.
  destruct (Qeq_bool _ 0) eqn:E; [now apply Qeq_bool_iff in E|].
  destruct Hfirst as [->|[first [Hfirst Hdate]]].
  - cbn. rewrite String.eqb_refl. eexists. split; reflexivity.
  - destruct h as [|x h]; [discriminate|]. injection Hfirst as ->.
    cbn. apply String.eqb_eq in Hdate. rewrite Hdate.
    change (Z.to_nat 0) with 0%nat. unfold at_index. cbn.
    rewrite String.eqb_refl. eexists. split; reflexivity.
Qed.

(** ** The daily tab *)

(** X13. The daily tab lists at most 30 entries: the most recent ones,
    newest first, starting with the last entry of the history; for a
    reachable history their dates are distinct. *)
Theorem recentDaily_lists_latest h :
  length (recentDaily h) = Nat.min 30 (length h) /\
  recentDaily h = reverse (drop (length h - 30) h) /\
  recentDaily h !! 0%nat = last h /\
  (reachable h -> NoDup (List.map date (recentDaily h))).
Proof.
  unfold recentDaily. split; [|split; [|split]].
  - now rewrite length_take, length_reverse.
  - apply take_reverse.
  - rewrite lookup_take_lt by lia. rewrite <- head_lookup. apply head_reverse.
  - intros Hreach. apply reachable_NoDup in Hreach.
    change (NoDup (date <$> take 30 (reverse h))).
    rewrite fmap_take, fmap_reverse.
    eapply sublist_NoDup; [|apply sublist_take].
    now rewrite reverse_Permutation.
Qed.

(** ** Positions without a price *)

Lemma unpriced_value_zero txs prices p :
  In p (resolvePositions txs prices) -> prices !! symbol p = None ->
  currentValue p == 0.
Proof.
  intros Hin Hnone. apply In_resolvePositions in Hin as [q [_ [-> _]]].
  cbn in Hnone. cbn. rewrite Hnone. cbn. ring.
Qed.

(** X14. While no reported symbol has a price - as before the first prices
    arrive - the portfolio is worth exactly 0 and the daily effect records
    nothing. *)
Theorem no_price_no_snapshot txs prices balance h today :
  (forall p, In p (resolvePositions txs prices) ->
             prices !! symbol p = None) ->
  getTotalPortfolioValue (resolvePositions txs prices) == 0 /\
  trackDailyPnL (resolvePositions txs prices) balance h today = h.
Proof.
  intros Hnone.
  assert (H : Forall (fun p => currentValue p == 0)
                (resolvePositions txs prices)).
  { apply Forall_forall. intros p Hin. apply list_elem_of_In in Hin.
    apply (unpriced_value_zero txs prices); [assumption | now apply Hnone]. }
  assert (Hzero : getTotalPortfolioValue (resolvePositions txs prices) == 0).
  { unfold getTotalPortfolioValue. clear Hnone.
    induction H as [|p l Hp _ IH]; cbn; [reflexivity|].
    rewrite fold_left_plus, IH, Hp. ring. }
  split; [assumption | now apply trackDailyPnL_skip].
Qed.

(** ** Fetching prices *)

Lemma seen_spec x seen : existsb (String.eqb x) seen = true <-> In x seen.
Proof.
  rewrite existsb_exists. split.
  - intros [y [Hin Hy]]. apply String.eqb_eq in Hy. now subst y.
  - intros Hin. exists x. split; [assumption | apply String.eqb_refl].
Qed.

Lemma In_uniqueFrom x seen l :
  In x (uniqueFrom seen l) <-> In x l /\ ~ In x seen.
Proof.
  revert seen. induction l as [|y l IH]; intros seen; cbn; [tauto|].
  destruct (existsb (String.eqb y) seen) eqn:E.
  - apply seen_spec in E. rewrite IH. split; [tauto|].
    intros [[<-|Hin] Hseen]; tauto.
  - assert (Hy : ~ In y seen) by (rewrite <- seen_spec; congruence).
    cbn. rewrite IH. cbn. split.
    + intros [<-|[Hin Hseen]]; tauto.
    + intros [[<-|Hin] Hseen]; [tauto|].
      destruct (String.string_dec y x) as [<-|Hne]; tauto.
Qed.

Lemma NoDup_uniqueFrom seen l : NoDup (uniqueFrom seen l).
Proof.
  revert seen. induction l as [|y l IH]; intros seen; cbn; [constructor|].
  destruct (existsb (String.eqb y) seen); [apply IH|].
  apply NoDup_cons. split; [|apply IH].
  rewrite list_elem_of_In, In_uniqueFrom. cbn. tauto.
Qed.

Lemma In_unique x l : In x (unique l) <-> In x l.
Proof. unfold unique. rewrite In_uniqueFrom. cbn. tauto. Qed.

(** X15. The tokens asked for are the symbols of the ledger and the eight
    popular tokens, each once; the list is never empty, so the request is
    never skipped. *)
Theorem tokensToFetch_covers txs :
  (forall token,
     In token (tokensToFetch txs) <->
     In token (List.map tokenSymbol txs) \/ In token POPULAR_TOKENS) /\
  NoDup (tokensToFetch txs) /\
  tokensToFetch txs <> [].
Proof.
  assert (H : forall token,
             In token (tokensToFetch txs) <->
             In token (List.map tokenSymbol txs) \/ In token POPULAR_TOKENS).
  { intros token. unfold tokensToFetch.
    now rewrite In_unique, in_app_iff, In_unique. }
  split; [exact H|]. split; [apply NoDup_uniqueFrom|].
  intros Hnil. assert (Hbtc : In "BTC"%string (tokensToFetch txs))
    by (apply H; right; now left).
  rewrite Hnil in Hbtc. destruct Hbtc.
Qed.








(** ** A held token without a price *)

(** X18. A reported position whose symbol has no price is valued at 0: its
    current price and value are 0, its P&L is minus the amount invested,
    and with a positive amount invested it is shown at -100 percent. *)
Theorem unpriced_position_total_loss txs prices p :
  In p (resolvePositions txs prices) -> prices !! symbol p = None ->
  currentPrice p = 0 /\ currentValue p == 0 /\
  pnl p == - totalInvested p /\
  (0 < totalInvested p -> pnlPercentage p == -100).
Proof.
  intros Hin Hnone. apply In_resolvePositions in Hin as [q [_ [-> _]]].
  cbn in Hnone. cbn. rewrite Hnone. cbn.
  split; [reflexivity|]. split; [ring|]. split; [ring|].
  intros Hpos. apply Qltb_lt in Hpos as Hb. rewrite Hb. field. lra.
Qed.

(** ** The average cost lies between the purchase prices *)





(** ** Instances of the further properties *)


Lemma scenarioA_reported_transactions :
  In scenarioAReported (resolvePositions scenarioA (btcAt 50000)) /\
  transactions scenarioAReported = ofSymbol "BTC" scenarioA.
Proof.
  assert (Hin : In scenarioAReported (resolvePositions scenarioA (btcAt 50000)))
    by (vm_compute; left; reflexivity).
  split; [exact Hin|].
  exact (proj1 (reported_transactions scenarioA (btcAt 50000)
                  scenarioAReported Hin)).
Defined.




Lemma bitcoin_submission_keeps_ether :
  foldTransactions twoPrices
    (addTransaction parseDecimal 1700000000002 negativeAmountForm twoTokens)
    !! "ETH" =
  foldTransactions twoPrices twoTokens !! "ETH".
Proof.
  assert (Hne : "ETH"%string <> toUpperCase (formSymbol negativeAmountForm))
    by (vm_compute; discriminate).
  exact (proj1 (addTransaction_frame parseDecimal 1700000000002
                  negativeAmountForm twoTokens twoPrices "ETH" Hne)).
Defined.

Lemma first_sample_shows_today :
  exists entry,
    getTodaysPnL (trackDailyPnL oneBitcoin 0 [] newYear) newYear = Some entry /\
    date entry = newYear /\
    portfolioValue entry = getTotalPortfolioValue oneBitcoin.
Proof.
  apply (proj2 (todays_entry_after_sample oneBitcoin 0 [] newYear)).
  vm_compute. discriminate.
Defined.

Lemma resample_keeps_the_eve :
  exists e,
    twoDays !! 0%nat = Some e /\
    trackDailyPnL oneBitcoin 500 twoDays newYear !! 0%nat = Some e.
Proof.
  eexists. split; [reflexivity|].
  apply (sample_keeps_other_days oneBitcoin 500 twoDays newYear 0);
    [reflexivity | discriminate].
Defined.

Lemma second_day_ignores_balance :
  trackDailyPnL oneBitcoin 1 (trackDailyPnL oneBitcoin 0 [] eve) newYear =
  trackDailyPnL oneBitcoin 2 (trackDailyPnL oneBitcoin 0 [] eve) newYear.
Proof.
  apply (start_balance_only_for_first_day oneBitcoin _ newYear
           (dailyEntry eve (getTotalPortfolioValue oneBitcoin) 0)).
  - apply reachable_sample, reachable_empty.
  - vm_compute. reflexivity.
  - discriminate.
Defined.

Lemma saving_500_rebases_today :
  exists entry,
    getTodaysPnL
      (trackDailyPnL oneBitcoin
         (startBalance (setStartBalanceValue parseDecimal balanceForm500))
         (onlyEntry newYear) newYear) newYear = Some entry /\
    dailyChange entry == 120 - 500.
Proof.
  destruct (saved_balance_rebases_first_day parseDecimal balanceForm500
              oneBitcoin (onlyEntry newYear) newYear)
    as (_ & _ & entry & Hentry & Hchange).
  - discriminate.
  - vm_compute. discriminate.
  - right. eexists. split; reflexivity.
  - exists entry. split; [exact Hentry|]. rewrite Hchange.
    vm_compute. reflexivity.
Defined.

Lemma recent_dates_of_one_sample :
  NoDup (List.map date (recentDaily (trackDailyPnL oneBitcoin 0 [] newYear))).
Proof.
  apply (proj2 (proj2 (proj2
           (recentDaily_lists_latest
              (trackDailyPnL oneBitcoin 0 [] newYear))))).
  apply reachable_sample, reachable_empty.
Defined.

Lemma scenarioA_without_prices_records_nothing :
  trackDailyPnL (resolvePositions scenarioA ∅) 0 twoDays newYear = twoDays.
Proof.
  apply (no_price_no_snapshot scenarioA ∅ 0 twoDays newYear).
  intros p _. apply lookup_empty.
Defined.


Lemma scenarioA_unpriced_total_loss :
  In scenarioAUnpriced (resolvePositions scenarioA ∅) /\
  pnl scenarioAUnpriced == - totalInvested scenarioAUnpriced /\
  pnlPercentage scenarioAUnpriced == -100.
Proof.
  assert (Hin : In scenarioAUnpriced (resolvePositions scenarioA ∅))
    by (vm_compute; left; reflexivity).
  destruct (unpriced_position_total_loss scenarioA ∅ scenarioAUnpriced Hin)
    as (_ & _ & Hpnl & Hpct); [reflexivity|].
  split; [exact Hin|]. split; [exact Hpnl|].
  apply Hpct. vm_compute. reflexivity.
Defined.



End PnLTracker.
